(** * AgriBridge backend: filters, listings, validation and analytics

    A shallow embedding of [main.py] and [schemas.py].  Documents are
    association lists of field names to BSON-like values, the store handle
    [db] is an optional database ([None] when the connection could not be
    configured), and every endpoint is a function from the handle and the
    request parameters to a [result]. *)

From Stdlib Require Import List String Ascii Bool ZArith QArith Qreduction Lia.
From Stdlib Require Import Sorting.Sorted Permutation DecimalString.
Import ListNotations.
Local Open Scope string_scope.
Local Open Scope list_scope.

(** ** Values and documents *)

(** A stored value.  Numbers (BSON int and double alike) are exact
    rationals; [VOid] carries the textual rendering of an ObjectId. *)
#[warnings="-register-all"]
Inductive value : Type :=
| VNull
| VBool (b : bool)
| VNum (q : Q)
| VStr (s : string)
| VOid (s : string)
| VList (l : list value)
| VDoc (l : list (string * value)).

Definition document : Type := list (string * value).

(** Structural equality of values; numbers are compared by their numeric
    value, so [1] and [2/2] are the same key. *)
Fixpoint veqb (a b : value) {struct a} : bool :=
  match a, b with
  | VNull, VNull => true
  | VBool x, VBool y => Bool.eqb x y
  | VNum x, VNum y => Qeq_bool x y
  | VStr x, VStr y => String.eqb x y
  | VOid x, VOid y => String.eqb x y
  | VList xs, VList ys =>
      (fix go (l1 l2 : list value) {struct l1} : bool :=
         match l1, l2 with
         | [], [] => true
         | x :: l1', y :: l2' => veqb x y && go l1' l2'
         | _, _ => false
         end) xs ys
  | VDoc xs, VDoc ys =>
      (fix go (l1 l2 : list (string * value)) {struct l1} : bool :=
         match l1, l2 with
         | [], [] => true
         | (k1, x) :: l1', (k2, y) :: l2' =>
             String.eqb k1 k2 && veqb x y && go l1' l2'
         | _, _ => false
         end) xs ys
  | _, _ => false
  end.

(** Induction on values that reaches the elements of arrays and the
    fields of embedded documents. *)
Section ValueInduction.
Variable P : value -> Prop.
Hypothesis HNull : P VNull.
Hypothesis HBool : forall b, P (VBool b).
Hypothesis HNum : forall q, P (VNum q).
Hypothesis HStr : forall s, P (VStr s).
Hypothesis HOid : forall s, P (VOid s).
Hypothesis HList : forall l, Forall P l -> P (VList l).
Hypothesis HDoc : forall l, Forall (fun kv => P (snd kv)) l -> P (VDoc l).

Fixpoint value_nested_ind (v : value) : P v :=
  match v with
  | VNull => HNull
  | VBool b => HBool b
  | VNum q => HNum q
  | VStr s => HStr s
  | VOid s => HOid s
  | VList l =>
      HList l
        ((fix go (l : list value) : Forall P l :=
            match l with
            | [] => Forall_nil P
            | x :: l' => Forall_cons x (value_nested_ind x) (go l')
            end) l)
  | VDoc l =>
      HDoc l
        ((fix go (l : list (string * value))
            : Forall (fun kv => P (snd kv)) l :=
            match l with
            | [] => Forall_nil _
            | kv :: l' =>
                Forall_cons kv (value_nested_ind (snd kv)) (go l')
            end) l)
  end.
End ValueInduction.

(** [d.get(k)] on a document or a Python dict keyed by strings. *)
Fixpoint dict_get {A : Type} (k : string) (d : list (string * A)) : option A :=
  match d with
  | [] => None
  | (k', v) :: d' => if String.eqb k k' then Some v else dict_get k d'
  end.

(** [d[k] = v]: an existing key keeps its position and takes the new
    value, a new key goes last. *)
Fixpoint dict_set {A : Type} (k : string) (v : A) (d : list (string * A))
  : list (string * A) :=
  match d with
  | [] => [(k, v)]
  | (k', v') :: d' =>
      if String.eqb k k' then (k, v) :: d' else (k', v') :: dict_set k v d'
  end.

(** ** Errors *)

Inductive loc_item : Type :=
| LField (name : string)
| LIndex (i : nat).

Inductive constraint : Type :=
| greater_than_equal (bound : Q)
| greater_than (bound : Q).

Inductive error : Type :=
| ValidationError (errors : list (list loc_item * constraint))
| StoreError
| TypeError
| ConfigurationError
| InvalidDocument
| OverflowError
| NotImplementedError
| OperationFailure (msg : string).

Inductive result (A : Type) : Type :=
| Ok (a : A)
| Err (e : error).
Arguments Ok {A} a.
Arguments Err {A} e.

Definition bind {A B : Type} (r : result A) (k : A -> result B) : result B :=
  match r with
  | Ok a => k a
  | Err e => Err e
  end.

Notation "x <- c ;; k" := (bind c (fun x => k))
  (at level 61, c at next level, right associativity).

(** ** Query filters *)

(** What Python code can put in a query: a value the driver can encode,
    or some other Python object (a function, a method). *)
Inductive pyval : Type :=
| PyBson (v : value)
| PyObject (repr : string).

(** The right-hand side of one filter entry: [{k: x}], [{k: {"$eq": x}}]
    or [{k: {"$in": [...]}}]. *)
Inductive cond : Type :=
| CIs (x : pyval)
| CEq (x : pyval)
| CIn (xs : list value).

Definition query : Type := list (string * cond).

Definition encodable (c : cond) : bool :=
  match c with
  | CIs (PyBson _) | CEq (PyBson _) | CIn _ => true
  | CIs (PyObject _) | CEq (PyObject _) => false
  end.

Definition cond_holds (field : option value) (c : cond) : bool :=
  match field, c with
  | Some x, CIs (PyBson v) | Some x, CEq (PyBson v) => veqb x v
  | Some x, CIn vs => existsb (veqb x) vs
  | _, _ => false
  end.

(** A document matches a filter when every entry holds; the empty filter
    matches every document. *)
Definition matches (filt : query) (d : document) : bool :=
  forallb (fun kc => cond_holds (dict_get (fst kc) d) (snd kc)) filt.

(** ** The store *)

(** A database: named collections in insertion order, whether the
    connection string names a default database, and the supply of fresh
    identifiers. *)
Record Database : Type := mkDatabase {
  collections : list (string * list document);
  default_database : bool;
  next_oid : nat
}.

(** [db[name]]: a collection never written to is empty. *)
Definition collection (d : Database) (name : string) : list document :=
  match dict_get name (collections d) with
  | Some c => c
  | None => []
  end.

(** [db[name].find(filt)]: the driver refuses a filter it cannot encode;
    otherwise the matching documents in insertion order. *)
Definition find (d : Database) (name : string) (filt : query)
  : result (list document) :=
  if forallb (fun kc => encodable (snd kc)) filt
  then Ok (filter (matches filt) (collection d name))
  else Err InvalidDocument.

(** [db[name].find_one(filt)]. *)
Definition find_one (d : Database) (name : string) (filt : query)
  : result (option document) :=
  docs <- find d name filt ;; Ok (hd_error docs).

(** Rendering of a fresh ObjectId. *)
Definition oid_text (n : nat) : string :=
  "oid" ++ NilEmpty.string_of_uint (Nat.to_uint n).

(** [db[name].insert_one(doc)]: the store adds the [_id]. *)
Definition insert_one (d : Database) (name : string) (doc : document)
  : string * Database :=
  let id := oid_text (next_oid d) in
  (id,
   mkDatabase
     (dict_set name (collection d name ++ [("_id", VOid id) :: doc])
        (collections d))
     (default_database d)
     (S (next_oid d))).

(** Modelled from the spec: the module [database] ([db], [get_documents],
    [create_document]) is not among the sources.  [db] is [None] when the
    store is unavailable and the driver's database handle otherwise;
    [get_documents] is the filtered scan of section 4.2 (all matching
    documents in insertion order, a StoreError when the store is
    unavailable). *)
Definition get_documents (db : option Database) (name : string) (filt : query)
  : result (list document) :=
  match db with
  | None => Err StoreError
  | Some d => find d name filt
  end.

(** Modelled from the spec: [create_document] of the module [database]
    inserts the serialized entity and returns the new identifier as a
    string, and fails with a StoreError when the store is unavailable.
    The returned pair also carries the database after the insert. *)
Definition create_document (db : option Database) (name : string)
  (doc : document) : result (string * Database) :=
  match db with
  | None => Err StoreError
  | Some d => Ok (insert_one d name doc)
  end.

(** [db[name]] on the handle itself: subscripting [None] is a TypeError. *)
Definition subscript (db : option Database) : result Database :=
  match db with
  | None => Err TypeError
  | Some d => Ok d
  end.

(** ** Filter builder and list endpoints ([main.py]) *)

(** Truth value of an [Optional[str]] parameter: [None] and the empty
    string are false. *)
Definition truthy (p : option string) : bool :=
  match p with
  | Some s => negb (String.eqb s "")
  | None => false
  end.

(** [if p: filt[k] = p] *)
Definition set_if (k : string) (p : option string) (filt : query) : query :=
  match p with
  | Some s => if truthy p then dict_set k (CIs (PyBson (VStr s))) filt else filt
  | None => filt
  end.

Definition list_farmers (db : option Database) (region : option string)
  : result (list document) :=
  let filt := set_if "region" region [] in
  get_documents db "farmer" filt.

Definition list_buyers (db : option Database) (type : option string)
  : result (list document) :=
  let filt := set_if "type" type [] in
  get_documents db "buyer" filt.

(** [str(fid)] for the [_id] read with [f.get("_id")]: an ObjectId
    renders as its text, a string as itself, a missing [_id] ([None]) and
    the booleans as Python prints them.  The store gives every document an
    ObjectId, so the last case (a number, an array or an embedded document
    as identifier) is only there to make the function total. *)
Definition py_str_id (fid : option value) : string :=
  match fid with
  | Some (VOid s) => s
  | Some (VStr s) => s
  | Some (VBool true) => "True"
  | Some (VBool false) => "False"
  | _ => "None"
  end.

(** The filter of [list_products]: the two equality entries, and with a
    region the farmer lookup that overwrites the [farmer_id] entry. *)
Definition products_filter (db : option Database)
  (farmer_id category region : option string) : result query :=
  let filt := set_if "farmer_id" farmer_id [] in
  let filt := set_if "category" category filt in
  match region with
  | Some r =>
      if truthy region then
        d <- subscript db ;;
        farmers <- find d "farmer" [("region", CIs (PyBson (VStr r)))] ;;
        let farmer_ids := map (dict_get "_id") farmers in
        Ok (dict_set "farmer_id"
              (CIn (map (fun fid => VStr (py_str_id fid)) farmer_ids)) filt)
      else Ok filt
  | None => Ok filt
  end.

Definition list_products (db : option Database)
  (farmer_id category region : option string) : result (list document) :=
  filt <- products_filter db farmer_id category region ;;
  get_documents db "product" filt.

Definition list_orders (db : option Database)
  (buyer_id status : option string) : result (list document) :=
  let filt := set_if "buyer_id" buyer_id [] in
  let filt := set_if "status" status filt in
  get_documents db "order" filt.

(** [cold_chain] is tested with [is not None], not by truth value. *)
Definition routes_filter (date : option string) (cold_chain : option bool)
  : query :=
  let filt := set_if "date" date [] in
  match cold_chain with
  | Some b => dict_set "cold_chain" (CIs (PyBson (VBool b))) filt
  | None => filt
  end.

Definition list_routes (db : option Database) (date : option string)
  (cold_chain : option bool) : result (list document) :=
  get_documents db "route" (routes_filter date cold_chain).

(** ** Entity model ([schemas.py]) *)

(** The bound checks of [Field(..., ge=b)] and [Field(..., gt=b)]: an
    offending field contributes one entry naming its location and the
    violated constraint.  Inputs are taken after the type stage: a raw
    record already has a value of the declared Python type in every
    required field, and [None] where an optional field is absent. *)
Definition check_ge (loc : list loc_item) (bound x : Q)
  : list (list loc_item * constraint) :=
  if Qle_bool bound x then [] else [(loc, greater_than_equal bound)].

Definition check_gt (loc : list loc_item) (bound x : Q)
  : list (list loc_item * constraint) :=
  if negb (Qle_bool x bound) then [] else [(loc, greater_than bound)].

Definition from_default {A : Type} (o : option A) (default : A) : A :=
  match o with
  | Some a => a
  | None => default
  end.

Module Product.
Record raw : Type := mkRaw {
  raw_farmer_id : string;
  raw_title : string;
  raw_category : string;
  raw_price : Q;
  raw_unit : string;
  raw_available_quantity : Q;
  raw_photos : option (list string);
  raw_description : option string
}.

Record t : Type := mk {
  farmer_id : string;
  title : string;
  category : string;
  price : Q;
  unit : string;
  available_quantity : Q;
  photos : list string;
  description : option string
}.

Definition errors (r : raw) : list (list loc_item * constraint) :=
  check_ge [LField "price"] 0 (raw_price r)
  ++ check_ge [LField "available_quantity"] 0 (raw_available_quantity r).

(** Construction of a [Product] from the raw fields. *)
Definition validate (r : raw) : result t :=
  match errors r with
  | [] =>
      Ok (mk (raw_farmer_id r) (raw_title r) (raw_category r) (raw_price r)
            (raw_unit r) (raw_available_quantity r)
            (from_default (raw_photos r) []) (raw_description r))
  | e :: es => Err (ValidationError (e :: es))
  end.

Definition dump_optional (o : option string) : value :=
  match o with
  | Some s => VStr s
  | None => VNull
  end.

(** [payload.model_dump()]: the fields in declaration order. *)
Definition model_dump (p : t) : document :=
  [("farmer_id", VStr (farmer_id p));
   ("title", VStr (title p));
   ("category", VStr (category p));
   ("price", VNum (price p));
   ("unit", VStr (unit p));
   ("available_quantity", VNum (available_quantity p));
   ("photos", VList (map VStr (photos p)));
   ("description", dump_optional (description p))].
End Product.

Module OrderItem.
Record t : Type := mk {
  product_id : string;
  quantity : Q;
  price : Q
}.

(** The errors of one item, located under [loc]. *)
Definition errors (loc : list loc_item) (i : t)
  : list (list loc_item * constraint) :=
  check_gt (loc ++ [LField "quantity"]) 0 (quantity i)
  ++ check_ge (loc ++ [LField "price"]) 0 (price i).

(** Construction of an [OrderItem] from the raw fields. *)
Definition validate (i : t) : result t :=
  match errors [] i with
  | [] => Ok i
  | e :: es => Err (ValidationError (e :: es))
  end.
End OrderItem.

Module Order.
Record raw : Type := mkRaw {
  raw_buyer_id : string;
  raw_items : list OrderItem.t;
  raw_status : option string;
  raw_delivery_method : option string;
  raw_scheduled_date : option string;
  raw_route_id : option string
}.

Record t : Type := mk {
  buyer_id : string;
  items : list OrderItem.t;
  status : string;
  delivery_method : string;
  scheduled_date : option string;
  route_id : option string
}.

(** The errors of the items, each located at [items.<index>]. *)
Fixpoint items_errors (index : nat) (l : list OrderItem.t)
  : list (list loc_item * constraint) :=
  match l with
  | [] => []
  | i :: l' =>
      OrderItem.errors [LField "items"; LIndex index] i
      ++ items_errors (S index) l'
  end.

(** Construction of an [Order] from the raw fields. *)
Definition validate (r : raw) : result t :=
  match items_errors 0 (raw_items r) with
  | [] =>
      Ok (mk (raw_buyer_id r) (raw_items r)
            (from_default (raw_status r) "pending")
            (from_default (raw_delivery_method r) "delivery")
            (raw_scheduled_date r) (raw_route_id r))
  | e :: es => Err (ValidationError (e :: es))
  end.
End Order.

(** ** Product creation ([main.py]) *)

(** [db.client.get_default_database()["farmer"].codec_options
    .document_class.__init__]: the client has a default database only when
    the connection string names one; the value reached is the [__init__]
    method of the document class, a Python object and not a document
    value. *)
Definition document_class_init (d : Database) : result pyval :=
  if default_database d
  then Ok (PyObject "dict.__init__")
  else Err ConfigurationError.

Definition create_product (db : option Database) (payload : Product.t)
  : result (string * Database) :=
  let farmer_id := Product.farmer_id payload in
  farmers <- subscript db ;;
  init <- document_class_init farmers ;;
  exists_ <- find_one farmers "farmer" [("_id", CEq init)] ;;
  create_document db "product" (Product.model_dump payload).

(** The route [POST /api/products]: the body is validated into a
    [Product] before the handler runs. *)
Definition post_products (db : option Database) (body : Product.raw)
  : result (string * Database) :=
  payload <- Product.validate body ;;
  create_product db payload.

(** ** Aggregation pipelines

    The analytics endpoints build a pipeline and hand it to
    [db[name].aggregate].  The stages below say what the store computes
    when it runs such a pipeline, following its documented behaviour for
    the operators the program uses.  The store adds and averages stored
    numbers in floating point: that arithmetic is not modelled but taken
    as given. *)

(** An expression of a stage: a field path (["$items.product_id"] is the
    path [items], [product_id]) or an integer literal. *)
Inductive expr : Type :=
| EPath (path : list string)
| EInt (z : Z).

Inductive accumulator : Type :=
| Sum (e : expr)
| Avg (e : expr).

Inductive stage : Type :=
| Match (filt : query)
| Unwind (field : string)
| Group (id : expr) (fields : list (string * accumulator))
| Sort (field : string) (direction : Z)
| Limit (n : Z).















Section StoreArithmetic.
(** What the store returns for the sum and for the mean of the given
    stored numbers. *)
Variable store_sum : list Q -> value.
Variable store_avg : list Q -> value.





End StoreArithmetic.

(** ** Analytics endpoints ([main.py]) *)

Definition pricing_pipeline (category : option string) : list stage :=
  let pipeline :=
    match category with
    | Some c =>
        if truthy category
        then [Match [("category", CIs (PyBson (VStr c)))]]
        else []
    | None => []
    end in
  pipeline
  ++ [Group (EPath ["category"])
        [("avg_price", Avg (EPath ["price"])); ("count", Sum (EInt 1))];
      Sort "avg_price" 1].

Definition demand_pipeline (limit : Z) : list stage :=
  [Unwind "items";
   Group (EPath ["items"; "product_id"])
     [("orders", Sum (EInt 1));
      ("qty", Sum (EPath ["items"; "quantity"]))];
   Sort "orders" (-1);
   Limit limit].

Definition supply_pipeline : list stage :=
  [Group (EPath ["category"])
     [("available", Sum (EPath ["available_quantity"]));
      ("items", Sum (EInt 1))];
   Sort "available" (-1)].

(** The truth value of the handle, as [if db] and [if not db] take it:
    [None] is false; the driver's database object refuses to be tested
    for truth (NotImplementedError) and asks to be compared with
    [None]. *)
Definition truth_value (db : option Database) : result bool :=
  match db with
  | None => Ok false
  | Some _ => Err NotImplementedError
  end.

Section Analytics.
(** [list(db[name].aggregate(pipeline))]: what the store answers, rows or
    an error; the endpoints do not catch it. *)
Variable aggregate :
  Database -> string -> list stage -> result (list document).

Definition pricing_trends (db : option Database) (category : option string)
  : result (list document) :=
  let pipeline := pricing_pipeline category in
  test <- truth_value db ;;
  if test
  then (d <- subscript db ;; aggregate d "product" pipeline)
  else Ok [].

Definition demand_forecast (db : option Database) (limit : Z)
  : result (list document) :=
  test <- truth_value db ;;
  if negb test then Ok []
  else (d <- subscript db ;; aggregate d "order" (demand_pipeline limit)).

Definition supply_overview (db : option Database) : result (list document) :=
  test <- truth_value db ;;
  if negb test then Ok []
  else (d <- subscript db ;; aggregate d "product" supply_pipeline).
End Analytics.

(** A database holding the given collections. *)
Definition database_of (cs : list (string * list document)) : Database :=
  mkDatabase cs true 0.

(** ** Reference notions used in the statements *)

(** The farmers whose region is [r]. *)
Definition region_is (r : string) (f : document) : bool :=
  match dict_get "region" f with
  | Some (VStr s) => String.eqb s r
  | _ => false
  end.

Definition farmers_of_region (d : Database) (r : string) : list document :=
  filter (region_is r) (collection d "farmer").

(** The identifiers of the given farmers, rendered as strings. *)
Definition farmer_ids (farmers : list document) : list value :=
  map (fun f => VStr (py_str_id (dict_get "_id" f))) farmers.

(** A route whose [cold_chain] field is the boolean [b]. *)
Definition cold_chain_is (b : bool) (r : document) : bool :=
  match dict_get "cold_chain" r with
  | Some (VBool x) => Bool.eqb x b
  | _ => false
  end.























(** Sample data. *)
Definition tomatoes : document :=
  [("_id", VOid "p1"); ("farmer_id", VStr "f1"); ("title", VStr "Tomatoes");
   ("category", VStr "veg"); ("price", VNum 10)].

Definition tomatoes_body : Product.raw :=
  Product.mkRaw "f1" "Tomatoes" "veg" 0 "kg" 3 None None.

Definition bad_item : OrderItem.t := OrderItem.mk "p1" 0 5.

Definition bad_order : Order.raw :=
  Order.mkRaw "b1" [OrderItem.mk "p2" 1 1; bad_item] None None None None.





(** ** The other entities ([schemas.py]) and their creation ([main.py]) *)

Module Farmer.
Record raw : Type := mkRaw {
  raw_name : string;
  raw_phone : string;
  raw_region : string;
  raw_farm_name : option string;
  raw_languages : option (list string);
  raw_certifications : option (list string);
  raw_bio : option string
}.

Record t : Type := mk {
  name : string;
  phone : string;
  region : string;
  farm_name : option string;
  languages : list string;
  certifications : list string;
  bio : option string
}.

(** Construction of a [Farmer]: no field has a bound, the two lists have
    default factories. *)
Definition validate (r : raw) : result t :=
  Ok (mk (raw_name r) (raw_phone r) (raw_region r) (raw_farm_name r)
        (from_default (raw_languages r) ["uz"])
        (from_default (raw_certifications r) [])
        (raw_bio r)).

Definition model_dump (f : t) : document :=
  [("name", VStr (name f));
   ("phone", VStr (phone f));
   ("region", VStr (region f));
   ("farm_name", Product.dump_optional (farm_name f));
   ("languages", VList (map VStr (languages f)));
   ("certifications", VList (map VStr (certifications f)));
   ("bio", Product.dump_optional (bio f))].
End Farmer.

Module Buyer.
Record t : Type := mk {
  name : string;
  type : string;
  organization : option string;
  phone : string;
  region : option string
}.

(** Construction of a [Buyer]: no bound and no default other than
    [None]. *)
Definition validate (r : t) : result t := Ok r.

Definition model_dump (b : t) : document :=
  [("name", VStr (name b));
   ("type", VStr (type b));
   ("organization", Product.dump_optional (organization b));
   ("phone", VStr (phone b));
   ("region", Product.dump_optional (region b))].
End Buyer.

Module RouteStop.
Record t : Type := mk {
  order_id : string;
  location : option string;
  eta : option string
}.

Definition model_dump (s : t) : value :=
  VDoc [("order_id", VStr (order_id s));
        ("location", Product.dump_optional (location s));
        ("eta", Product.dump_optional (eta s))].
End RouteStop.

Module Route.
Record raw : Type := mkRaw {
  raw_date : string;
  raw_vehicle_type : option string;
  raw_cold_chain : option bool;
  raw_stops : option (list RouteStop.t)
}.

Record t : Type := mk {
  date : string;
  vehicle_type : option string;
  cold_chain : bool;
  stops : list RouteStop.t
}.

(** Construction of a [Route]: [cold_chain] defaults to [False], [stops]
    to the empty list. *)
Definition validate (r : raw) : result t :=
  Ok (mk (raw_date r) (raw_vehicle_type r)
        (from_default (raw_cold_chain r) false)
        (from_default (raw_stops r) [])).

Definition model_dump (r : t) : document :=
  [("date", VStr (date r));
   ("vehicle_type", Product.dump_optional (vehicle_type r));
   ("cold_chain", VBool (cold_chain r));
   ("stops", VList (map RouteStop.model_dump (stops r)))].
End Route.

(** [model_dump] of an order item and of an order. *)
Definition order_item_dump (i : OrderItem.t) : value :=
  VDoc [("product_id", VStr (OrderItem.product_id i));
        ("quantity", VNum (OrderItem.quantity i));
        ("price", VNum (OrderItem.price i))].

Definition order_model_dump (o : Order.t) : document :=
  [("buyer_id", VStr (Order.buyer_id o));
   ("items", VList (map order_item_dump (Order.items o)));
   ("status", VStr (Order.status o));
   ("delivery_method", VStr (Order.delivery_method o));
   ("scheduled_date", Product.dump_optional (Order.scheduled_date o));
   ("route_id", Product.dump_optional (Order.route_id o))].

Definition create_farmer (db : option Database) (payload : Farmer.t)
  : result (string * Database) :=
  create_document db "farmer" (Farmer.model_dump payload).

Definition create_buyer (db : option Database) (payload : Buyer.t)
  : result (string * Database) :=
  create_document db "buyer" (Buyer.model_dump payload).

Definition create_order (db : option Database) (payload : Order.t)
  : result (string * Database) :=
  create_document db "order" (order_model_dump payload).

Definition create_route (db : option Database) (payload : Route.t)
  : result (string * Database) :=
  create_document db "route" (Route.model_dump payload).

(** The routes [POST /api/farmers], [/api/buyers], [/api/orders] and
    [/api/routes]: the body is validated into the entity before the
    handler runs. *)
Definition post_farmers (db : option Database) (body : Farmer.raw)
  : result (string * Database) :=
  payload <- Farmer.validate body ;; create_farmer db payload.

Definition post_buyers (db : option Database) (body : Buyer.t)
  : result (string * Database) :=
  payload <- Buyer.validate body ;; create_buyer db payload.

Definition post_orders (db : option Database) (body : Order.raw)
  : result (string * Database) :=
  payload <- Order.validate body ;; create_order db payload.

Definition post_routes (db : option Database) (body : Route.raw)
  : result (string * Database) :=
  payload <- Route.validate body ;; create_route db payload.

(** ** Further reference notions *)

(** The document the store holds after an insert of [doc] that was given
    the identifier [id]. *)
Definition stored (id : string) (doc : document) : document :=
  ("_id", VOid id) :: doc.

(** What a string parameter of a listing asks of a document: nothing when
    the parameter is absent or empty, otherwise that the field is this
    string. *)
Definition param_holds (k : string) (p : option string) (o : document)
  : Prop :=
  match p with
  | Some s => s = "" \/ dict_get k o = Some (VStr s)
  | None => True
  end.

(** An item the order model accepts. *)
Definition item_ok (i : OrderItem.t) : Prop :=
  (0 < OrderItem.quantity i)%Q /\ (0 <= OrderItem.price i)%Q.

(** Whether a string parameter of a listing lets a document through:
    [holdsb] on the document, [selects] on the string its field holds. *)
Definition holdsb (k : string) (p : option string) (o : document) : bool :=
  match p with
  | Some s =>
      String.eqb s ""
      || match dict_get k o with
         | Some v => veqb v (VStr s)
         | None => false
         end
  | None => true
  end.

Definition selects (p : option string) (v : string) : bool :=
  match p with
  | Some s => String.eqb s "" || String.eqb s v
  | None => true
  end.

Definition selects_bool (p : option bool) (v : bool) : bool :=
  match p with
  | Some b => Bool.eqb v b
  | None => true
  end.

Definition sample_farmer : Farmer.raw :=
  Farmer.mkRaw "Aziz" "+998901234567" "Fergana" None None None None.

Definition sample_order : Order.raw :=
  Order.mkRaw "b1" [OrderItem.mk "p1" 2 4; OrderItem.mk "p1" 1 4]
    None None None None.

(** * Properties *)

(** ** Dictionaries *)

Section Dictionaries.
Context {A : Type}.

Lemma dict_get_set_same (k : string) (v : A) (d : list (string * A)) :
  dict_get k (dict_set k v d) = Some v.
Proof.
  induction d as [|[k' v'] d IH]; simpl.
  - now rewrite String.eqb_refl.
  - destruct (String.eqb k k') eqn:E; simpl.
    + now rewrite String.eqb_refl.
    + now rewrite E.
Qed.

Lemma dict_get_set_other (k k' : string) (v : A) (d : list (string * A)) :
  k <> k' -> dict_get k' (dict_set k v d) = dict_get k' d.
Proof.
  intros Hne.
  assert (Hkk : String.eqb k' k = false) by (apply String.eqb_neq; congruence).
  induction d as [|[k0 v0] d IH]; simpl.
  - now rewrite Hkk.
  - destruct (String.eqb k k0) eqn:E; simpl.
    + apply String.eqb_eq in E. subst k0. now rewrite Hkk.
    + now rewrite IH.
Qed.

Lemma dict_get_In (k : string) (v : A) (d : list (string * A)) :
  dict_get k d = Some v -> In (k, v) d.
Proof.
  induction d as [|[k' v'] d IH]; simpl; [discriminate|].
  destruct (String.eqb k k') eqn:E.
  - apply String.eqb_eq in E. intros [= ->]. subst. now left.
  - intros H. right. now apply IH.
Qed.
End Dictionaries.

(** ** Equality of values *)

Lemma veqb_str (v : value) (s : string) :
  veqb v (VStr s) = true <-> v = VStr s.
Proof.
  split.
  - destruct v; simpl; try discriminate.
    intros H. apply String.eqb_eq in H. now subst.
  - intros ->. simpl. apply String.eqb_refl.
Qed.

Lemma veqb_bool (v : value) (b : bool) :
  veqb v (VBool b) = true <-> v = VBool b.
Proof.
  split.
  - destruct v; simpl; try discriminate.
    intros H. apply Bool.eqb_prop in H. now subst.
  - intros ->. simpl. apply Bool.eqb_reflx.
Qed.

(** ** Filters *)

Lemma matches_nil (d : document) : matches [] d = true.
Proof. reflexivity. Qed.

Lemma filter_all {A : Type} (f : A -> bool) (l : list A) :
  (forall x, In x l -> f x = true) -> filter f l = l.
Proof.
  induction l as [|x l IH]; simpl; intros H; [reflexivity|].
  rewrite (H x (or_introl eq_refl)). f_equal. apply IH. auto.
Qed.

Lemma filter_none {A : Type} (f : A -> bool) (l : list A) :
  (forall x, In x l -> f x = false) -> filter f l = [].
Proof.
  induction l as [|x l IH]; simpl; intros H; [reflexivity|].
  rewrite (H x (or_introl eq_refl)). apply IH. auto.
Qed.

(** A filter entry that fails on a document makes the whole filter fail. *)
Lemma matches_entry_fails (filt : query) (k : string) (c : cond) (d : document) :
  dict_get k filt = Some c ->
  cond_holds (dict_get k d) c = false ->
  matches filt d = false.
Proof.
  intros Hget Hc. apply dict_get_In in Hget.
  unfold matches. apply not_true_is_false. intros Hall.
  rewrite forallb_forall in Hall. specialize (Hall _ Hget). simpl in Hall.
  congruence.
Qed.

Lemma find_nil (d : Database) (name : string) :
  find d name [] = Ok (collection d name).
Proof.
  unfold find. simpl. f_equal. apply filter_all. reflexivity.
Qed.

(** An empty string sets no filter entry. *)
Lemma set_if_empty (k : string) (filt : query) :
  set_if k (Some "") filt = set_if k None filt.
Proof. reflexivity. Qed.

Lemma set_if_value (k s : string) (filt : query) :
  s <> "" -> set_if k (Some s) filt = dict_set k (CIs (PyBson (VStr s))) filt.
Proof.
  intros Hs. unfold set_if, truthy.
  destruct (String.eqb s "") eqn:E; [apply String.eqb_eq in E; contradiction|].
  reflexivity.
Qed.

Lemma set_if_encodable (k : string) (p : option string) (filt : query) :
  forallb (fun kc => encodable (snd kc)) filt = true ->
  forallb (fun kc => encodable (snd kc)) (set_if k p filt) = true.
Proof.
  intros H. destruct p as [s|]; simpl; [|exact H].
  destruct (negb (String.eqb s "")); [|exact H].
  induction filt as [|[k' c'] filt IH]; simpl in *; [reflexivity|].
  apply andb_prop in H as [H1 H2].
  destruct (String.eqb k k'); simpl; rewrite ?H1, ?H2; auto.
Qed.

Lemma set_if_other (k k' : string) (p : option string) (filt : query) :
  k <> k' -> dict_get k' (set_if k p filt) = dict_get k' filt.
Proof.
  intros Hne. destruct p as [s|]; simpl; [|reflexivity].
  destruct (negb (String.eqb s "")); [|reflexivity].
  now apply dict_get_set_other.
Qed.

Lemma dict_set_encodable (k : string) (c : cond) (filt : query) :
  encodable c = true ->
  forallb (fun kc => encodable (snd kc)) filt = true ->
  forallb (fun kc => encodable (snd kc)) (dict_set k c filt) = true.
Proof.
  intros Hc H.
  induction filt as [|[k' c'] filt IH]; simpl in *; [now rewrite Hc|].
  apply andb_prop in H as [H1 H2].
  destruct (String.eqb k k'); simpl; rewrite ?Hc, ?H1, ?H2; auto.
Qed.

Lemma find_region (d : Database) (r : string) :
  find d "farmer" [("region", CIs (PyBson (VStr r)))]
  = Ok (farmers_of_region d r).
Proof.
  unfold find, farmers_of_region. simpl. f_equal.
  apply filter_ext. intros f. unfold matches, region_is. simpl.
  destruct (dict_get "region" f) as [[]|]; simpl; try reflexivity.
  apply andb_true_r.
Qed.

(** ** Listing endpoints *)

Lemma products_filter_region (d : Database)
  (farmer_id category : option string) (r : string) :
  r <> "" ->
  products_filter (Some d) farmer_id category (Some r)
  = Ok (dict_set "farmer_id" (CIn (farmer_ids (farmers_of_region d r)))
          (set_if "category" category (set_if "farmer_id" farmer_id []))).
Proof.
  intros Hr. unfold products_filter, truthy.
  destruct (String.eqb r "") eqn:E; [apply String.eqb_eq in E; contradiction|].
  simpl negb. cbv iota. unfold subscript, bind at 1.
  rewrite find_region. unfold bind, farmer_ids. now rewrite map_map.
Qed.

Lemma products_filter_encodable (d : Database)
  (farmer_id category : option string) (ids : list value) :
  forallb (fun kc => encodable (snd kc))
    (dict_set "farmer_id" (CIn ids)
       (set_if "category" category (set_if "farmer_id" farmer_id []))) = true.
Proof.
  apply dict_set_encodable; [reflexivity|].
  apply set_if_encodable, set_if_encodable. reflexivity.
Qed.

Lemma existsb_veqb_str (x : value) (l : list document) :
  existsb (veqb x) (farmer_ids l) = true ->
  exists f, In f l /\ x = VStr (py_str_id (dict_get "_id" f)).
Proof.
  unfold farmer_ids. rewrite existsb_exists.
  intros (v & Hin & Hv). apply in_map_iff in Hin as (f & <- & Hf).
  apply veqb_str in Hv. eauto.
Qed.

(** C1 (as amended): for a non-empty region and an available store, the
    filter of the product listing holds, under [farmer_id], membership in
    the string identifiers of all farmers of that region, whatever
    [farmer_id] parameter came with the request; the category entry is
    kept; every listed product refers to one of these farmers; and when
    no farmer has the region the listing is the empty sequence. *)
Theorem C1_list_products_region (d : Database)
  (farmer_id category : option string) (r : string) :
  r <> "" ->
  exists filt,
    products_filter (Some d) farmer_id category (Some r) = Ok filt
    /\ dict_get "farmer_id" filt
       = Some (CIn (farmer_ids (farmers_of_region d r)))
    /\ dict_get "category" filt
       = dict_get "category" (set_if "category" category [])
    /\ list_products (Some d) farmer_id category (Some r)
       = Ok (filter (matches filt) (collection d "product"))
    /\ (forall p, In p (filter (matches filt) (collection d "product")) ->
          exists f, In f (farmers_of_region d r)
            /\ dict_get "farmer_id" p
               = Some (VStr (py_str_id (dict_get "_id" f))))
    /\ (farmers_of_region d r = [] ->
          list_products (Some d) farmer_id category (Some r) = Ok []).
Proof.
  intros Hr. eexists. split; [now apply products_filter_region|].
  set (filt := dict_set "farmer_id" _ _).
  assert (Hfid : dict_get "farmer_id" filt
                 = Some (CIn (farmer_ids (farmers_of_region d r))))
    by apply dict_get_set_same.
  assert (Hlist : list_products (Some d) farmer_id category (Some r)
                  = Ok (filter (matches filt) (collection d "product"))).
  { unfold list_products. rewrite products_filter_region by assumption.
    unfold bind, get_documents, find. fold filt.
    unfold filt. now rewrite products_filter_encodable. }
  split; [exact Hfid|]. split.
  { unfold filt. rewrite dict_get_set_other by discriminate.
    destruct category as [c|]; simpl; [|now rewrite set_if_other by discriminate].
    destruct (negb (String.eqb c "")).
    - now rewrite !dict_get_set_same.
    - now rewrite set_if_other by discriminate. }
  split; [exact Hlist|]. split.
  - intros p Hp. apply filter_In in Hp as [_ Hm].
    destruct (dict_get "farmer_id" p) as [x|] eqn:Ex.
    + destruct (existsb (veqb x) (farmer_ids (farmers_of_region d r))) eqn:Eb.
      * apply existsb_veqb_str in Eb as (f & Hf & ->). eauto.
      * rewrite (matches_entry_fails filt "farmer_id" _ p Hfid) in Hm;
          [discriminate|]. rewrite Ex. exact Eb.
    + rewrite (matches_entry_fails filt "farmer_id" _ p Hfid) in Hm;
        [discriminate|]. now rewrite Ex.
  - intros Hnone. rewrite Hlist. f_equal. apply filter_none.
    intros p _. apply (matches_entry_fails filt "farmer_id" _ p Hfid).
    rewrite Hnone. simpl. now destruct (dict_get "farmer_id" p).
Qed.

Lemma C1_list_products_region_witness :
  "Fergana" <> ""
  /\ exists filt,
       products_filter (Some (database_of [("product", [tomatoes])]))
         (Some "f1") None (Some "Fergana") = Ok filt
       /\ list_products (Some (database_of [("product", [tomatoes])]))
            (Some "f1") None (Some "Fergana") = Ok [].
Proof.
  split; [discriminate|].
  destruct (C1_list_products_region (database_of [("product", [tomatoes])])
              (Some "f1") None "Fergana") as (filt & H1 & _ & _ & _ & _ & H6).
  - discriminate.
  - exists filt. split; [exact H1|]. apply H6. reflexivity.
Defined.

(** C1 (as stated) fails for a region parameter that is supplied empty:
    no farmer has the empty region, yet no lookup replaces the
    [farmer_id] equality entry and the listing is not empty. *)
Lemma C1_empty_region_counterexample :
  farmers_of_region (database_of [("product", [tomatoes])]) "" = []
  /\ products_filter (Some (database_of [("product", [tomatoes])]))
       (Some "f1") None (Some "")
     = Ok [("farmer_id", CIs (PyBson (VStr "f1")))]
  /\ list_products (Some (database_of [("product", [tomatoes])]))
       (Some "f1") None (Some "")
     = Ok [tomatoes].
Proof. repeat split. Qed.

Lemma filter_andb {A : Type} (f g : A -> bool) (l : list A) :
  filter (fun x => f x && g x) l = filter g (filter f l).
Proof.
  induction l as [|x l IH]; simpl; [reflexivity|].
  destruct (f x); simpl; [destruct (g x)|]; now rewrite IH.
Qed.

Lemma matches_cold_chain (b : bool) (r : document) :
  cond_holds (dict_get "cold_chain" r) (CIs (PyBson (VBool b)))
  = cold_chain_is b r.
Proof.
  unfold cold_chain_is. simpl.
  destruct (dict_get "cold_chain" r) as [[]|]; reflexivity.
Qed.

Lemma cold_chain_is_spec (b : bool) (r : document) :
  cold_chain_is b r = true <-> dict_get "cold_chain" r = Some (VBool b).
Proof.
  unfold cold_chain_is.
  destruct (dict_get "cold_chain" r) as [[]|]; split; try discriminate.
  - intros H. apply Bool.eqb_prop in H. now subst.
  - intros [= ->]. apply Bool.eqb_reflx.
Qed.

Lemma list_routes_unset (d : Database) (date : option string) :
  list_routes (Some d) date None
  = Ok (filter (matches (set_if "date" date [])) (collection d "route")).
Proof.
  unfold list_routes, routes_filter, get_documents, find.
  now rewrite set_if_encodable.
Qed.

Lemma list_routes_set (d : Database) (date : option string) (b : bool) :
  list_routes (Some d) date (Some b)
  = Ok (filter (cold_chain_is b)
          (filter (matches (set_if "date" date [])) (collection d "route"))).
Proof.
  unfold list_routes, routes_filter, get_documents, find.
  rewrite dict_set_encodable by (auto using set_if_encodable).
  f_equal. rewrite <- filter_andb. apply filter_ext. intros r.
  destruct date as [s|]; simpl.
  - destruct (negb (String.eqb s "")); unfold matches; simpl;
      rewrite matches_cold_chain, ?andb_true_r; reflexivity.
  - unfold matches. simpl. now rewrite matches_cold_chain, andb_true_r.
Qed.

(** C8: with [cold_chain] unset the listing holds every route (and, with
    a date, every route of that date) whatever its [cold_chain] value;
    with [cold_chain] given, also as [false], it holds exactly those of
    them whose [cold_chain] field is that boolean, in the same order; the
    two requests build different filters. *)
Theorem C8_list_routes_cold_chain (d : Database) (date : option string) :
  list_routes (Some d) None None = Ok (collection d "route")
  /\ list_routes (Some d) None (Some false)
     = Ok (filter (cold_chain_is false) (collection d "route"))
  /\ (exists routes,
        list_routes (Some d) date None = Ok routes
        /\ forall b, list_routes (Some d) date (Some b)
                     = Ok (filter (cold_chain_is b) routes))
  /\ (forall b r, cold_chain_is b r = true
                  <-> dict_get "cold_chain" r = Some (VBool b))
  /\ routes_filter None None = []
  /\ routes_filter None (Some false)
     = [("cold_chain", CIs (PyBson (VBool false)))].
Proof.
  split; [|split; [|split; [|split; [|split]]]].
  - rewrite list_routes_unset. simpl. f_equal. now apply filter_all.
  - rewrite list_routes_set. simpl. do 2 f_equal. now apply filter_all.
  - eexists. split; [apply list_routes_unset|].
    intros b. apply list_routes_set.
  - apply cold_chain_is_spec.
  - reflexivity.
  - reflexivity.
Qed.

(** C10: on the farmer, buyer, product and order listings a string
    parameter given as the empty string yields the same result as the
    parameter left out; with [region] empty the farmer listing holds
    every farmer. *)
Theorem C10_empty_string_is_omitted (db : option Database) (d : Database)
  (farmer_id category region buyer_id status : option string) :
  list_farmers db (Some "") = list_farmers db None
  /\ list_buyers db (Some "") = list_buyers db None
  /\ list_products db (Some "") category region
     = list_products db None category region
  /\ list_products db farmer_id (Some "") region
     = list_products db farmer_id None region
  /\ list_products db farmer_id category (Some "")
     = list_products db farmer_id category None
  /\ list_orders db (Some "") status = list_orders db None status
  /\ list_orders db buyer_id (Some "") = list_orders db buyer_id None
  /\ list_farmers (Some d) (Some "") = Ok (collection d "farmer").
Proof.
  repeat split. unfold list_farmers. rewrite set_if_empty. apply find_nil.
Qed.

(** ** Validation of entities *)

Lemma check_ge_fails (loc : list loc_item) (bound x : Q) :
  (x < bound)%Q -> check_ge loc bound x = [(loc, greater_than_equal bound)].
Proof.
  intros H. unfold check_ge.
  destruct (Qle_bool bound x) eqn:E; [|reflexivity].
  apply Qle_bool_iff in E. exfalso. exact (Qlt_not_le _ _ H E).
Qed.

Lemma check_ge_passes (loc : list loc_item) (bound x : Q) :
  (bound <= x)%Q -> check_ge loc bound x = [].
Proof.
  intros H. unfold check_ge. apply Qle_bool_iff in H. now rewrite H.
Qed.

Lemma check_gt_fails (loc : list loc_item) (bound x : Q) :
  (x <= bound)%Q -> check_gt loc bound x = [(loc, greater_than bound)].
Proof.
  intros H. unfold check_gt. apply Qle_bool_iff in H. now rewrite H.
Qed.

(** Whatever the list of errors, a non-empty one rejects the product. *)
Lemma product_rejected (r : Product.raw)
  (e : list loc_item * constraint) :
  In e (Product.errors r) ->
  exists errs, Product.validate r = Err (ValidationError errs) /\ In e errs.
Proof.
  intros H. unfold Product.validate.
  destruct (Product.errors r) as [|e0 es]; [contradiction|]. eauto.
Qed.

Lemma item_rejected (loc : list loc_item) (i : OrderItem.t) :
  (OrderItem.quantity i <= 0)%Q ->
  In (loc ++ [LField "quantity"], greater_than 0) (OrderItem.errors loc i).
Proof.
  intros H. unfold OrderItem.errors. rewrite check_gt_fails by assumption.
  now left.
Qed.

Lemma items_rejected (l : list OrderItem.t) (i : OrderItem.t) (index : nat) :
  In i l -> (OrderItem.quantity i <= 0)%Q ->
  exists n, nth_error l n = Some i
    /\ In ([LField "items"; LIndex (index + n); LField "quantity"],
           greater_than 0) (Order.items_errors index l).
Proof.
  revert index. induction l as [|x l IH]; intros index Hin Hq; [contradiction|].
  destruct Hin as [->|Hin].
  - exists 0%nat. split; [reflexivity|]. simpl. apply in_or_app. left.
    rewrite Nat.add_0_r. now apply (item_rejected [LField "items"; LIndex index]).
  - destruct (IH (S index) Hin Hq) as (n & Hn & He).
    exists (S n). split; [exact Hn|]. simpl. apply in_or_app. right.
    now rewrite Nat.add_succ_r.
Qed.

(** C6: constructing a Product is rejected with a ValidationError naming
    the field when [price < 0] or [available_quantity < 0], and accepted
    when [price] is 0 (and the quantity is not negative); an OrderItem
    with [quantity <= 0] is rejected, and so is every Order that contains
    one, with an error naming the item's position. *)
Theorem C6_bounds_are_validated
  (r : Product.raw) (o : Order.raw) (i : OrderItem.t) :
  ((Product.raw_price r < 0)%Q ->
     exists errs, Product.validate r = Err (ValidationError errs)
       /\ In ([LField "price"], greater_than_equal 0) errs)
  /\ ((Product.raw_available_quantity r < 0)%Q ->
        exists errs, Product.validate r = Err (ValidationError errs)
          /\ In ([LField "available_quantity"], greater_than_equal 0) errs)
  /\ ((Product.raw_price r == 0)%Q ->
      (0 <= Product.raw_available_quantity r)%Q ->
        exists p, Product.validate r = Ok p
          /\ Product.price p = Product.raw_price r
          /\ Product.farmer_id p = Product.raw_farmer_id r)
  /\ ((OrderItem.quantity i <= 0)%Q ->
        exists errs, OrderItem.validate i = Err (ValidationError errs)
          /\ In ([LField "quantity"], greater_than 0) errs)
  /\ (In i (Order.raw_items o) -> (OrderItem.quantity i <= 0)%Q ->
        exists errs n, Order.validate o = Err (ValidationError errs)
          /\ nth_error (Order.raw_items o) n = Some i
          /\ In ([LField "items"; LIndex n; LField "quantity"],
                 greater_than 0) errs).
Proof.
  split; [|split; [|split; [|split]]].
  - intros H. apply product_rejected. unfold Product.errors.
    rewrite (check_ge_fails _ _ _ H). now left.
  - intros H. apply product_rejected. unfold Product.errors.
    rewrite (check_ge_fails [LField "available_quantity"] _ _ H).
    apply in_or_app. right. now left.
  - intros Hp Hq. unfold Product.validate, Product.errors.
    rewrite !check_ge_passes; [|assumption|rewrite Hp; apply Qle_refl].
    simpl. eauto.
  - intros H. unfold OrderItem.validate.
    pose proof (item_rejected [] i H) as Hin. simpl in Hin.
    destruct (OrderItem.errors [] i) as [|e es]; [contradiction|]. eauto.
  - intros Hin H. destruct (items_rejected _ _ 0 Hin H) as (n & Hn & He).
    unfold Order.validate. simpl in He.
    destruct (Order.items_errors 0 (Order.raw_items o)) as [|e es];
      [contradiction|]. eauto.
Qed.

Lemma C6_bounds_are_validated_witness :
  (exists errs,
     Product.validate (Product.mkRaw "f1" "Tomatoes" "veg" (-1) "kg" 3 None None)
     = Err (ValidationError errs))
  /\ (exists errs,
        Product.validate (Product.mkRaw "f1" "Tomatoes" "veg" 2 "kg" (-3) None None)
        = Err (ValidationError errs))
  /\ (exists p, Product.validate tomatoes_body = Ok p)
  /\ (exists errs, OrderItem.validate bad_item = Err (ValidationError errs))
  /\ (exists errs, Order.validate bad_order = Err (ValidationError errs)).
Proof.
  split; [|split; [|split; [|split]]].
  - destruct (C6_bounds_are_validated
                (Product.mkRaw "f1" "Tomatoes" "veg" (-1) "kg" 3 None None)
                bad_order bad_item) as (H & _).
    destruct H as (errs & H & _); [reflexivity|]. now exists errs.
  - destruct (C6_bounds_are_validated
                (Product.mkRaw "f1" "Tomatoes" "veg" 2 "kg" (-3) None None)
                bad_order bad_item) as (_ & H & _).
    destruct H as (errs & H & _); [reflexivity|]. now exists errs.
  - destruct (C6_bounds_are_validated tomatoes_body bad_order bad_item)
      as (_ & _ & H & _).
    destruct H as (p & H & _); [reflexivity|discriminate|]. now exists p.
  - destruct (C6_bounds_are_validated tomatoes_body bad_order bad_item)
      as (_ & _ & _ & H & _).
    destruct H as (errs & H & _); [discriminate|]. now exists errs.
  - destruct (C6_bounds_are_validated tomatoes_body bad_order bad_item)
      as (_ & _ & _ & _ & H).
    destruct H as (errs & n & H & _); [simpl; auto|discriminate|].
    now exists errs.
Defined.

(** ** Product creation *)

(** The placeholder lookup of [create_product] raises on every handle, so
    [create_document] is never reached. *)
Lemma create_product_raises (db : option Database) (payload : Product.t) :
  create_product db payload
  = match db with
    | None => Err TypeError
    | Some d =>
        if default_database d then Err InvalidDocument
        else Err ConfigurationError
    end.
Proof.
  destruct db as [d|]; [|reflexivity].
  unfold create_product, document_class_init. simpl.
  destruct (default_database d); reflexivity.
Qed.

(** C9 (the code departs from it): a product that passes validation is
    not inserted.  On an available store the lookup written before the
    insert raises, with or without a default database, although the
    insert itself would have returned an identifier whatever the farmer
    collection holds. *)
Theorem C9_create_product_raises :
  (exists p, Product.validate tomatoes_body = Ok p)
  /\ post_products (Some (database_of [])) tomatoes_body = Err InvalidDocument
  /\ post_products (Some (mkDatabase [] false 0)) tomatoes_body
     = Err ConfigurationError
  /\ (forall db payload, exists e, create_product db payload = Err e)
  /\ (forall d payload, exists id d',
        create_document (Some d) "product" (Product.model_dump payload)
        = Ok (id, d')
        /\ collection d' "product"
           = collection d "product"
             ++ [("_id", VOid id) :: Product.model_dump payload]).
Proof.
  split; [eexists; reflexivity|].
  split; [reflexivity|]. split; [reflexivity|]. split.
  - intros db payload. rewrite create_product_raises.
    destruct db as [d|]; [destruct (default_database d)|]; eauto.
  - intros d payload. do 2 eexists. split; [reflexivity|].
    unfold collection at 1. simpl. now rewrite dict_get_set_same.
Qed.

(** ** Equivalence of keys *)


Lemma veqb_refl (v : value) : veqb v v = true.
Proof.
  induction v as [| b | q | s | s | l IH | l IH] using value_nested_ind;
    simpl.
  - reflexivity.
  - apply Bool.eqb_reflx.
  - apply Qeq_bool_refl.
  - apply String.eqb_refl.
  - apply String.eqb_refl.
  - induction IH as [|x l Hx _ IHl]; [reflexivity|]. now rewrite Hx, IHl.
  - induction IH as [|[k x] l Hx _ IHl]; [reflexivity|].
    simpl in Hx. now rewrite String.eqb_refl, Hx, IHl.
Qed.





(** ** The group stage *)











(** ** The sort and limit stages *)

Section Sorting.
Variable le : document -> document -> bool.
Hypothesis le_total : forall a b, le a b = false -> le b a = true.

Local Abbreviation R := (fun a b : document => le a b = true).





End Sorting.









Lemma firstn_incl {A : Type} (n : nat) (l : list A) (x : A) :
  In x (firstn n l) -> In x l.
Proof.
  revert l. induction n as [|n IH]; intros [|y l]; simpl; try contradiction.
  intros [->|H]; auto.
Qed.

Lemma firstn_strongly_sorted {A : Type} (R : A -> A -> Prop) (n : nat)
  (l : list A) : StronglySorted R l -> StronglySorted R (firstn n l).
Proof.
  revert l. induction n as [|n IH]; intros l Hs; [constructor|].
  destruct Hs as [|a l Hs Ha]; simpl; [constructor|].
  constructor; [now apply IH|].
  rewrite Forall_forall in *. intros x Hx. apply Ha.
  now apply firstn_incl in Hx.
Qed.

(** ** Rows of the group stage *)

Section StoreRuns.
Variable store_sum : list Q -> value.
Variable store_avg : list Q -> value.





(** ** The pricing pipeline *)











(** ** The demand pipeline *)











End StoreRuns.









(** ** The analytics endpoints on a store handle *)

(** C7 (the code departs from it): on a store handle each of the three
    analytics endpoints raises at the truth test of the handle, before
    any pipeline reaches the store, whatever the collections hold; only
    without a handle do they return the empty sequence.  For an
    available store whose collections are empty the three calls are
    errors. *)
Theorem C7_analytics_raise
  (aggregate : Database -> string -> list stage -> result (list document))
  (d : Database) (category : option string) (limit : Z) :
  pricing_trends aggregate (Some d) category = Err NotImplementedError
  /\ demand_forecast aggregate (Some d) limit = Err NotImplementedError
  /\ supply_overview aggregate (Some d) = Err NotImplementedError
  /\ pricing_trends aggregate None category = Ok []
  /\ demand_forecast aggregate None limit = Ok []
  /\ supply_overview aggregate None = Ok []
  /\ collection (database_of []) "product" = []
  /\ collection (database_of []) "order" = []
  /\ supply_overview aggregate (Some (database_of []))
     = Err NotImplementedError.
Proof. repeat split. Qed.

(** * Further properties *)

(** ** Inserting and listing *)

Lemma insert_one_collection (d : Database) (name : string) (doc : document) :
  collection (snd (insert_one d name doc)) name
  = collection d name ++ [stored (fst (insert_one d name doc)) doc].
Proof.
  unfold collection at 1. simpl. now rewrite dict_get_set_same.
Qed.

Lemma insert_one_other (d : Database) (name other : string) (doc : document) :
  name <> other ->
  collection (snd (insert_one d name doc)) other = collection d other.
Proof.
  intros H. unfold collection. simpl. now rewrite dict_get_set_other.
Qed.

Lemma holdsb_spec (k : string) (p : option string) (o : document) :
  holdsb k p o = true <-> param_holds k p o.
Proof.
  unfold holdsb, param_holds. destruct p as [s|]; [|tauto].
  rewrite orb_true_iff, String.eqb_eq.
  destruct (dict_get k o) as [v|].
  - rewrite veqb_str. split; intros [H|H]; auto; right; congruence.
  - split; intros [H|H]; auto; discriminate.
Qed.

Lemma holdsb_field (k : string) (p : option string) (o : document) (v : string) :
  dict_get k o = Some (VStr v) -> holdsb k p o = selects p v.
Proof.
  intros H. unfold holdsb, selects. rewrite H. destruct p as [s|]; auto.
  simpl. now rewrite (String.eqb_sym v s).
Qed.

Lemma matches_one_param (k : string) (p : option string) (o : document) :
  matches (set_if k p []) o = holdsb k p o.
Proof.
  unfold set_if, holdsb, truthy. destruct p as [s|]; [|reflexivity].
  destruct (String.eqb s ""); simpl; [reflexivity|].
  unfold matches. simpl. rewrite andb_true_r.
  now destruct (dict_get k o).
Qed.

Lemma matches_two_params (k1 k2 : string) (p1 p2 : option string)
  (o : document) :
  String.eqb k2 k1 = false ->
  matches (set_if k2 p2 (set_if k1 p1 [])) o
  = holdsb k1 p1 o && holdsb k2 p2 o.
Proof.
  intros Hk. rewrite <- (matches_one_param k1 p1 o).
  unfold holdsb. destruct p2 as [s2|]; simpl; [|now rewrite andb_true_r].
  destruct (String.eqb s2 ""); simpl; [now rewrite andb_true_r|].
  destruct p1 as [s1|]; simpl.
  - destruct (String.eqb s1 ""); simpl; unfold matches; simpl;
      rewrite ?Hk; simpl; rewrite ?andb_true_r;
      now destruct (dict_get k2 o).
  - unfold matches. simpl. rewrite andb_true_r.
    now destruct (dict_get k2 o).
Qed.

Lemma set_if_two_encodable (k1 k2 : string) (p1 p2 : option string) :
  forallb (fun kc => encodable (snd kc)) (set_if k2 p2 (set_if k1 p1 [])) = true.
Proof. now apply set_if_encodable, set_if_encodable. Qed.

(** A listing after an insert into its collection: the earlier result,
    followed by the new document when the filter lets it through. *)
Lemma find_after_insert (d : Database) (name : string) (doc : document)
  (filt : query) :
  forallb (fun kc => encodable (snd kc)) filt = true ->
  find (snd (insert_one d name doc)) name filt
  = Ok (filter (matches filt) (collection d name)
        ++ (if matches filt (stored (fst (insert_one d name doc)) doc)
            then [stored (fst (insert_one d name doc)) doc] else [])).
Proof.
  intros H. unfold find. rewrite H, insert_one_collection, filter_app.
  reflexivity.
Qed.

(** X1: a farmer posted to an available store is stored as the dump of
    the validated farmer, with [languages] at the default ["uz"] when the
    body has none, under the identifier the call returns; afterwards a
    farmer listing returns what it returned before, followed by the new
    farmer when the region parameter is absent, empty or the farmer's
    region, and the other collections are untouched. *)
Theorem X1_farmer_round_trip (d : Database) (body : Farmer.raw)
  (region : option string) (other : string) :
  exists payload id d' old,
    Farmer.validate body = Ok payload
    /\ Farmer.languages payload
       = from_default (Farmer.raw_languages body) ["uz"]
    /\ post_farmers (Some d) body = Ok (id, d')
    /\ collection d' "farmer"
       = collection d "farmer"
         ++ [("_id", VOid id) :: Farmer.model_dump payload]
    /\ list_farmers (Some d) region = Ok old
    /\ list_farmers (Some d') region
       = Ok (old ++ (if selects region (Farmer.raw_region body)
                     then [("_id", VOid id) :: Farmer.model_dump payload]
                     else []))
    /\ ("farmer" <> other -> collection d' other = collection d other).
Proof.
  set (payload := Farmer.mk (Farmer.raw_name body) (Farmer.raw_phone body)
                    (Farmer.raw_region body) (Farmer.raw_farm_name body)
                    (from_default (Farmer.raw_languages body) ["uz"])
                    (from_default (Farmer.raw_certifications body) [])
                    (Farmer.raw_bio body)).
  set (ins := insert_one d "farmer" (Farmer.model_dump payload)).
  exists payload, (fst ins), (snd ins).
  eexists. split; [reflexivity|]. split; [reflexivity|].
  split; [reflexivity|]. split; [apply insert_one_collection|]. split.
  - unfold list_farmers, get_documents, find.
    rewrite set_if_encodable by reflexivity. reflexivity.
  - split.
    + unfold list_farmers, get_documents. unfold ins.
      rewrite find_after_insert by (now apply set_if_encodable).
      rewrite matches_one_param.
      now rewrite (holdsb_field "region" region _ (Farmer.raw_region body)).
    + intros H. now apply insert_one_other.
Qed.

(** X2: a buyer posted to an available store is stored as its dump under
    the identifier the call returns; afterwards the buyer listing
    returns what it returned before, followed by the new buyer exactly
    when the [type] parameter is absent, empty or the buyer's type. *)
Theorem X2_buyer_round_trip (d : Database) (body : Buyer.t)
  (type : option string) :
  exists id d' old,
    post_buyers (Some d) body = Ok (id, d')
    /\ collection d' "buyer"
       = collection d "buyer" ++ [("_id", VOid id) :: Buyer.model_dump body]
    /\ list_buyers (Some d) type = Ok old
    /\ list_buyers (Some d') type
       = Ok (old ++ (if selects type (Buyer.type body)
                     then [("_id", VOid id) :: Buyer.model_dump body]
                     else [])).
Proof.
  set (ins := insert_one d "buyer" (Buyer.model_dump body)).
  exists (fst ins), (snd ins).
  eexists. split; [reflexivity|]. split; [apply insert_one_collection|].
  split.
  - unfold list_buyers, get_documents, find.
    rewrite set_if_encodable by reflexivity. reflexivity.
  - unfold list_buyers, get_documents. unfold ins.
    rewrite find_after_insert by (now apply set_if_encodable).
    rewrite matches_one_param.
    now rewrite (holdsb_field "type" type _ (Buyer.type body)).
Qed.

(** X3: an order whose items pass validation is stored with [status]
    and [delivery_method] at their defaults "pending" and "delivery"
    when the body has none; afterwards the order listing returns the
    earlier result followed by the new order exactly when each of
    [buyer_id] and [status] is absent, empty or equal to the stored
    value. *)
Theorem X3_order_round_trip (d : Database) (body : Order.raw)
  (payload : Order.t) (buyer_id status : option string) :
  Order.validate body = Ok payload ->
  exists id d' doc old,
    post_orders (Some d) body = Ok (id, d')
    /\ dict_get "_id" doc = Some (VOid id)
    /\ dict_get "status" doc
       = Some (VStr (from_default (Order.raw_status body) "pending"))
    /\ dict_get "delivery_method" doc
       = Some (VStr (from_default (Order.raw_delivery_method body)
                       "delivery"))
    /\ list_orders (Some d) buyer_id status = Ok old
    /\ list_orders (Some d') buyer_id status
       = Ok (old ++ (if selects buyer_id (Order.raw_buyer_id body)
                        && selects status
                             (from_default (Order.raw_status body) "pending")
                     then [doc] else [])).
Proof.
  intros Hv.
  assert (Hp : payload
               = Order.mk (Order.raw_buyer_id body) (Order.raw_items body)
                   (from_default (Order.raw_status body) "pending")
                   (from_default (Order.raw_delivery_method body) "delivery")
                   (Order.raw_scheduled_date body) (Order.raw_route_id body)).
  { unfold Order.validate in Hv.
    destruct (Order.items_errors 0 (Order.raw_items body));
      [now inversion Hv|discriminate]. }
  set (ins := insert_one d "order" (order_model_dump payload)).
  exists (fst ins), (snd ins), (stored (fst ins) (order_model_dump payload)).
  eexists. split; [unfold post_orders; now rewrite Hv|].
  split; [reflexivity|]. split; [now rewrite Hp|].
  split; [now rewrite Hp|]. split.
  - unfold list_orders, get_documents, find.
    rewrite set_if_two_encodable. reflexivity.
  - unfold list_orders, get_documents. unfold ins.
    rewrite find_after_insert by apply set_if_two_encodable.
    rewrite matches_two_params by reflexivity.
    rewrite (holdsb_field "buyer_id" buyer_id _ (Order.raw_buyer_id body))
      by now rewrite Hp.
    rewrite (holdsb_field "status" status _
               (from_default (Order.raw_status body) "pending"))
      by now rewrite Hp.
    reflexivity.
Qed.

Lemma X3_order_round_trip_witness :
  exists payload id d',
    Order.validate sample_order = Ok payload
    /\ post_orders (Some (database_of [])) sample_order = Ok (id, d')
    /\ exists doc,
         list_orders (Some d') None (Some "pending") = Ok ([] ++ [doc])
         /\ dict_get "_id" doc = Some (VOid id).
Proof.
  eexists.
  destruct (X3_order_round_trip (database_of []) sample_order _
              None (Some "pending") eq_refl)
    as (id & d' & doc & old & Hpost & Hid & _ & _ & Hold & Hnew).
  exists id, d'. split; [reflexivity|]. split; [exact Hpost|].
  exists doc. split; [|exact Hid].
  injection Hold as <-. exact Hnew.
Defined.

Lemma matches_routes_filter (date : option string) (cold_chain : option bool)
  (o : document) :
  matches (routes_filter date cold_chain) o
  = holdsb "date" date o
    && match cold_chain with
       | Some b => cold_chain_is b o
       | None => true
       end.
Proof.
  rewrite <- (matches_one_param "date" date o). unfold routes_filter.
  destruct cold_chain as [b|]; [|now rewrite andb_true_r].
  rewrite <- matches_cold_chain.
  destruct date as [s|]; simpl.
  - destruct (negb (String.eqb s "")); unfold matches; simpl;
      now rewrite ?andb_true_r.
  - unfold matches. simpl. now rewrite andb_true_r.
Qed.

Lemma routes_filter_encodable (date : option string) (cold_chain : option bool) :
  forallb (fun kc => encodable (snd kc)) (routes_filter date cold_chain) = true.
Proof.
  unfold routes_filter. destruct cold_chain.
  - apply dict_set_encodable; [reflexivity|]. now apply set_if_encodable.
  - now apply set_if_encodable.
Qed.

(** X4: a posted route is stored with [cold_chain] at the default
    [false] when the body has none; afterwards the route listing returns
    the earlier result followed by the new route exactly when [date] is
    absent, empty or the route's date and [cold_chain] is absent or the
    stored boolean. *)
Theorem X4_route_round_trip (d : Database) (body : Route.raw)
  (date : option string) (cold_chain : option bool) :
  exists id d' doc old,
    post_routes (Some d) body = Ok (id, d')
    /\ dict_get "_id" doc = Some (VOid id)
    /\ dict_get "cold_chain" doc
       = Some (VBool (from_default (Route.raw_cold_chain body) false))
    /\ list_routes (Some d) date cold_chain = Ok old
    /\ list_routes (Some d') date cold_chain
       = Ok (old ++ (if selects date (Route.raw_date body)
                        && selects_bool cold_chain
                             (from_default (Route.raw_cold_chain body) false)
                     then [doc] else [])).
Proof.
  set (payload := Route.mk (Route.raw_date body) (Route.raw_vehicle_type body)
                    (from_default (Route.raw_cold_chain body) false)
                    (from_default (Route.raw_stops body) [])).
  set (ins := insert_one d "route" (Route.model_dump payload)).
  exists (fst ins), (snd ins), (stored (fst ins) (Route.model_dump payload)).
  eexists. split; [reflexivity|]. split; [reflexivity|].
  split; [reflexivity|]. split.
  - unfold list_routes, get_documents, find.
    rewrite routes_filter_encodable. reflexivity.
  - unfold list_routes, get_documents. unfold ins.
    rewrite find_after_insert by apply routes_filter_encodable.
    rewrite matches_routes_filter.
    rewrite (holdsb_field "date" date _ (Route.raw_date body)) by reflexivity.
    destruct cold_chain as [b|]; reflexivity.
Qed.

(** X5: the order listing returns, in collection order, exactly the
    orders that satisfy both the [buyer_id] and the [status] parameter,
    and the product listing without region exactly the products that
    satisfy both [farmer_id] and [category]; a parameter that is absent
    or empty asks nothing, any other asks the field to be that string. *)
Theorem X5_listing_filters (d : Database)
  (buyer_id status farmer_id category : option string) :
  list_orders (Some d) buyer_id status
  = Ok (filter (fun o => holdsb "buyer_id" buyer_id o
                         && holdsb "status" status o)
          (collection d "order"))
  /\ list_products (Some d) farmer_id category None
     = Ok (filter (fun p => holdsb "farmer_id" farmer_id p
                            && holdsb "category" category p)
             (collection d "product"))
  /\ (forall k p o, holdsb k p o = true <-> param_holds k p o).
Proof.
  split; [|split].
  - unfold list_orders, get_documents, find.
    rewrite set_if_two_encodable. f_equal. apply filter_ext.
    intros o. now apply matches_two_params.
  - unfold list_products, products_filter, bind, get_documents, find.
    rewrite set_if_two_encodable. f_equal. apply filter_ext.
    intros o. now apply matches_two_params.
  - apply holdsb_spec.
Qed.

Lemma matches_products_region (ids : list value)
  (farmer_id category : option string) (p : document) :
  matches (dict_set "farmer_id" (CIn ids)
             (set_if "category" category (set_if "farmer_id" farmer_id []))) p
  = cond_holds (dict_get "farmer_id" p) (CIn ids)
    && holdsb "category" category p.
Proof.
  rewrite <- (matches_one_param "category" category p).
  destruct farmer_id as [f|], category as [c|]; simpl;
    try destruct (negb (String.eqb f "")); try destruct (negb (String.eqb c ""));
    unfold matches; simpl; rewrite ?andb_true_r; try reflexivity;
    apply andb_comm.
Qed.

Lemma list_products_by_region (d : Database)
  (farmer_id category : option string) (r : string) :
  r <> "" ->
  list_products (Some d) farmer_id category (Some r)
  = Ok (filter (fun p => cond_holds (dict_get "farmer_id" p)
                           (CIn (farmer_ids (farmers_of_region d r)))
                         && holdsb "category" category p)
          (collection d "product")).
Proof.
  intros Hr. unfold list_products.
  rewrite products_filter_region by assumption.
  unfold bind, get_documents, find.
  rewrite (products_filter_encodable d). f_equal. apply filter_ext.
  intros p. apply matches_products_region.
Qed.

(** X6: with a non-empty region the [farmer_id] parameter of the product
    listing has no effect: the result is the same for every value of
    it. *)
Theorem X6_region_overrides_farmer_id (d : Database)
  (farmer_id farmer_id' category : option string) (r : string) :
  r <> "" ->
  list_products (Some d) farmer_id category (Some r)
  = list_products (Some d) farmer_id' category (Some r).
Proof.
  intros Hr. now rewrite !list_products_by_region.
Qed.

Lemma X6_region_overrides_farmer_id_witness :
  "Fergana" <> ""
  /\ list_products (Some (database_of [("product", [tomatoes])]))
       (Some "f1") None (Some "Fergana")
     = list_products (Some (database_of [("product", [tomatoes])]))
         None None (Some "Fergana").
Proof.
  assert (H : "Fergana" <> "") by discriminate.
  split; [exact H|].
  exact (X6_region_overrides_farmer_id
           (database_of [("product", [tomatoes])])
           (Some "f1") None None "Fergana" H).
Defined.

(** X7: the region lookup finds the products of the farmers of the
    region: a product whose [farmer_id] is the text of the [_id] of a
    farmer stored with region [r], and which satisfies the category
    parameter, is in the product listing for region [r]. *)
Theorem X7_region_join_complete (d : Database) (f p : document)
  (id r : string) (farmer_id category : option string) :
  r <> "" ->
  In f (collection d "farmer") ->
  dict_get "region" f = Some (VStr r) ->
  dict_get "_id" f = Some (VOid id) ->
  In p (collection d "product") ->
  dict_get "farmer_id" p = Some (VStr id) ->
  param_holds "category" category p ->
  exists out,
    list_products (Some d) farmer_id category (Some r) = Ok out /\ In p out.
Proof.
  intros Hr Hf Hregion Hid Hp Hfid Hcat.
  eexists. split; [now apply list_products_by_region|].
  apply filter_In. split; [assumption|].
  apply andb_true_intro. split; [|now apply holdsb_spec].
  rewrite Hfid. simpl. apply existsb_exists.
  exists (VStr id). split; [|apply (veqb_refl (VStr id))].
  unfold farmer_ids. apply in_map_iff. exists f. split.
  - now rewrite Hid.
  - unfold farmers_of_region. apply filter_In. split; [assumption|].
    unfold region_is. rewrite Hregion. apply String.eqb_refl.
Qed.

Lemma X7_region_join_complete_witness :
  exists out,
    list_products
      (Some (database_of
               [("farmer", [[("_id", VOid "f1"); ("region", VStr "Fergana")]]);
                ("product", [tomatoes])]))
      None (Some "veg") (Some "Fergana") = Ok out
    /\ In tomatoes out.
Proof.
  apply (X7_region_join_complete
           (database_of
              [("farmer", [[("_id", VOid "f1"); ("region", VStr "Fergana")]]);
               ("product", [tomatoes])])
           [("_id", VOid "f1"); ("region", VStr "Fergana")] tomatoes
           "f1" "Fergana" None (Some "veg")).
  - discriminate.
  - now left.
  - reflexivity.
  - reflexivity.
  - now left.
  - reflexivity.
  - right. reflexivity.
Defined.

(** ** Validation is exact *)

Lemma check_ge_nil (loc : list loc_item) (bound x : Q) :
  check_ge loc bound x = [] <-> (bound <= x)%Q.
Proof.
  unfold check_ge. rewrite <- Qle_bool_iff.
  destruct (Qle_bool bound x); split; auto; discriminate.
Qed.

Lemma check_gt_nil (loc : list loc_item) (bound x : Q) :
  check_gt loc bound x = [] <-> (bound < x)%Q.
Proof.
  unfold check_gt. destruct (Qle_bool x bound) eqn:E; simpl.
  - apply Qle_bool_iff in E. split; [discriminate|].
    intros H. exfalso. exact (Qlt_not_le _ _ H E).
  - split; [|reflexivity]. intros _. apply Qnot_le_lt.
    intros H. apply Qle_bool_iff in H. congruence.
Qed.

Lemma items_errors_nil (l : list OrderItem.t) (index : nat) :
  Order.items_errors index l = [] <-> Forall item_ok l.
Proof.
  revert index. induction l as [|i l IH]; intros index; simpl.
  - split; auto.
  - split.
    + intros H. apply app_eq_nil in H as [Hi Hl].
      unfold OrderItem.errors in Hi. apply app_eq_nil in Hi as [Hq Hp].
      constructor; [|now apply (IH (S index))].
      split; [now apply check_gt_nil in Hq|now apply check_ge_nil in Hp].
    + intros H. inversion H as [|? ? [Hq Hp] Hl]; subst.
      unfold OrderItem.errors.
      apply (check_gt_nil ([LField "items"; LIndex index] ++ [LField "quantity"]))
        in Hq.
      apply (check_ge_nil ([LField "items"; LIndex index] ++ [LField "price"]))
        in Hp.
      rewrite Hq, Hp. simpl. now apply IH.
Qed.

(** X8: an order body is accepted exactly when every item has
    [quantity > 0] and [price >= 0]; in particular a body with no item
    at all is accepted. *)
Theorem X8_order_validation_exact (body : Order.raw) :
  ((exists payload, Order.validate body = Ok payload)
   <-> Forall item_ok (Order.raw_items body))
  /\ (Order.raw_items body = [] -> exists payload,
        Order.validate body = Ok payload /\ Order.items payload = []).
Proof.
  assert (Hiff : (exists payload, Order.validate body = Ok payload)
                 <-> Forall item_ok (Order.raw_items body)).
  { rewrite <- (items_errors_nil _ 0). unfold Order.validate.
    destruct (Order.items_errors 0 (Order.raw_items body)); split.
    - reflexivity.
    - eauto.
    - intros [? Hv]. discriminate.
    - discriminate. }
  split; [exact Hiff|].
  intros Hnil. unfold Order.validate. rewrite Hnil. simpl. eauto.
Qed.

Lemma X8_order_validation_exact_witness :
  exists payload,
    Order.validate (Order.mkRaw "b1" [] None None None None) = Ok payload
    /\ Order.items payload = [].
Proof.
  destruct (X8_order_validation_exact (Order.mkRaw "b1" [] None None None None))
    as [_ H].
  exact (H eq_refl).
Defined.

(** X9: a product body is accepted exactly when [price >= 0] and
    [available_quantity >= 0]; the accepted product has the body's
    [farmer_id], and [photos] at the default empty list when the body
    has none. *)
Theorem X9_product_validation_exact (body : Product.raw) :
  ((exists payload, Product.validate body = Ok payload)
   <-> (0 <= Product.raw_price body)%Q
       /\ (0 <= Product.raw_available_quantity body)%Q)
  /\ (forall payload, Product.validate body = Ok payload ->
        Product.farmer_id payload = Product.raw_farmer_id body
        /\ Product.photos payload
           = from_default (Product.raw_photos body) []).
Proof.
  split.
  - rewrite <- (check_ge_nil [LField "price"]),
      <- (check_ge_nil [LField "available_quantity"]).
    unfold Product.validate, Product.errors.
    destruct (check_ge [LField "price"] 0 (Product.raw_price body)),
      (check_ge [LField "available_quantity"] 0
         (Product.raw_available_quantity body)); simpl; split;
      try (intros [? Hv]; discriminate);
      eauto.
  - unfold Product.validate. intros payload H.
    destruct (Product.errors body); [|discriminate].
    injection H as <-. repeat split.
Qed.

Lemma X9_product_validation_exact_witness :
  exists payload,
    Product.validate tomatoes_body = Ok payload
    /\ Product.photos payload = [].
Proof.
  destruct (X9_product_validation_exact tomatoes_body) as [_ H].
  eexists. split; [reflexivity|].
  now destruct (H _ eq_refl) as (_ & ->).
Defined.
